(** * The physical-operator protocol of ray.data

    A shallow embedding of
    [python/ray/data/_internal/execution/interfaces/physical_operator.py]:
    the class [PhysicalOperator], its three completion flags, the methods
    the executor calls on it and the defaults the class supplies.

    Python objects are modelled as records, exceptions as the [Raise] branch
    of [result], and a method as a function from the receiver to a result
    and the receiver afterwards.  The methods a concrete operator overrides
    ([add_input], [has_next], [get_next], [get_work_refs],
    [notify_work_completed], [num_outputs_total]) are reached through the
    receiver's [Class], as Python reaches them through [self]; the class
    [PhysicalOperator] itself is the [Class] whose entries are the bodies
    found in the source file.  The other methods are the ones
    [PhysicalOperator] defines: a subclass that replaces [start],
    [shutdown] or [all_inputs_done] is outside this development.  A
    subclass's methods work on its private state and leave the three flags
    to the methods of [PhysicalOperator]; [has_next] and [get_work_refs]
    read that state and do not change it. *)

From Stdlib Require Import ZArith List String Bool QArith Lia.
Import ListNotations.

Local Open Scope string_scope.
Local Open Scope Z_scope.

(** ** Exceptions and results *)

Inductive exn : Type :=
| ValueError (msg : string)
| NotImplementedError
| AssertionError.

Inductive result (A : Type) : Type :=
| Ok (a : A)
| Raise (e : exn).

Arguments Ok {A} a.
Arguments Raise {A} e.

Definition returns {A : Type} (r : result A) : Prop :=
  exists a : A, r = Ok a.

Definition raises {A : Type} (r : result A) : Prop :=
  exists e : exn, r = Raise e.

(** ** Values on the edges of the graph *)

(** [ray.ObjectRef]: an opaque reference to a unit of asynchronous work. *)
Inductive ObjectRef : Type :=
| ObjRef (id : Z).

(** Modelled from the spec: the class [RefBundle] of [ref_bundle.py], which
    the source imports and never inspects.  A bundle is a handle that
    carries its size and its row count. *)
Record RefBundle : Type := mkRefBundle {
  size_bytes : Z;
  num_rows : Z
}.

(** Modelled from the spec: the class [ExecutionResources] of
    [execution_options.py], which the source imports and builds with no
    argument or with one keyword ([ExecutionResources(gpu=8)],
    [ExecutionResources(cpu=1)]).  A resource vector has a cpu, a gpu and a
    shared-memory component, a zero and a component-wise sum; a component
    that the constructor is not given is none of that resource. *)
Record ExecutionResources : Type := mkExecutionResources {
  cpu : Q;
  gpu : Q;
  object_store_memory : Q
}.

Definition ExecutionResources_zero : ExecutionResources :=
  {| cpu := 0%Q; gpu := 0%Q; object_store_memory := 0%Q |}.

Definition ExecutionResources_add (a b : ExecutionResources)
  : ExecutionResources :=
  {| cpu := (cpu a + cpu b)%Q;
     gpu := (gpu a + gpu b)%Q;
     object_store_memory := (object_store_memory a + object_store_memory b)%Q |}.

(** [ExecutionResources()], every keyword left at its default. *)
Definition ExecutionResources_new : ExecutionResources :=
  ExecutionResources_zero.

Definition nonnegative (r : ExecutionResources) : Prop :=
  (0 <= cpu r)%Q /\ (0 <= gpu r)%Q /\ (0 <= object_store_memory r)%Q.

(** Modelled from the spec: the class [ExecutionOptions] of
    [execution_options.py]; [start] receives it and does not read it. *)
Record ExecutionOptions : Type := mkExecutionOptions {
  resource_limits : ExecutionResources
}.

(** ** Classes and objects *)

(** What a concrete operator class supplies: the type of its private state
    and the methods it defines over that state.  [c_num_outputs_total] is
    [None] for a class that inherits [PhysicalOperator.num_outputs_total]. *)
Record Class : Type := mkClass {
  state : Type;
  c_add_input : state -> RefBundle -> Z -> result state;
  c_has_next : state -> result bool;
  c_get_next : state -> result (RefBundle * state);
  c_get_work_refs : state -> list ObjectRef;
  c_notify_work_completed : state -> ObjectRef -> result state;
  c_num_outputs_total : option (state -> option Z)
}.

(** An operator object.  [name] and [input_dependencies] are the attributes
    kept by the parent class [Operator] (modelled from the spec: that class,
    of [logical/interfaces], is not in the source file; it stores the two
    constructor arguments).  The three flags are the ones [__init__] sets. *)
#[warnings="-register-all"]
Inductive PhysicalOperator : Type :=
  Build_PhysicalOperator
    (class : Class)
    (priv : state class)
    (name : string)
    (input_dependencies : list PhysicalOperator)
    (_inputs_complete _dependents_complete _started : bool).

Definition class (self : PhysicalOperator) : Class :=
  match self with Build_PhysicalOperator C _ _ _ _ _ _ => C end.

Definition priv (self : PhysicalOperator) : state (class self) :=
  match self with Build_PhysicalOperator _ p _ _ _ _ _ => p end.

Definition name (self : PhysicalOperator) : string :=
  match self with Build_PhysicalOperator _ _ n _ _ _ _ => n end.

Definition input_dependencies (self : PhysicalOperator)
  : list PhysicalOperator :=
  match self with Build_PhysicalOperator _ _ _ d _ _ _ => d end.

Definition _inputs_complete (self : PhysicalOperator) : bool :=
  match self with Build_PhysicalOperator _ _ _ _ b _ _ => b end.

Definition _dependents_complete (self : PhysicalOperator) : bool :=
  match self with Build_PhysicalOperator _ _ _ _ _ b _ => b end.

Definition _started (self : PhysicalOperator) : bool :=
  match self with Build_PhysicalOperator _ _ _ _ _ _ b => b end.

(** Attribute assignment. *)
Definition set_priv (self : PhysicalOperator) (p : state (class self))
  : PhysicalOperator :=
  Build_PhysicalOperator (class self) p (name self) (input_dependencies self)
    (_inputs_complete self) (_dependents_complete self) (_started self).

Definition set_inputs_complete (self : PhysicalOperator) (b : bool)
  : PhysicalOperator :=
  Build_PhysicalOperator (class self) (priv self) (name self)
    (input_dependencies self) b (_dependents_complete self) (_started self).

Definition set_dependents_complete (self : PhysicalOperator) (b : bool)
  : PhysicalOperator :=
  Build_PhysicalOperator (class self) (priv self) (name self)
    (input_dependencies self) (_inputs_complete self) b (_started self).

Definition set_started (self : PhysicalOperator) (b : bool)
  : PhysicalOperator :=
  Build_PhysicalOperator (class self) (priv self) (name self)
    (input_dependencies self) (_inputs_complete self)
    (_dependents_complete self) b.

(** ** Methods: a state and exception monad over the receiver *)

Definition M (A : Type) : Type :=
  PhysicalOperator -> result A * PhysicalOperator.

Definition ret {A : Type} (a : A) : M A :=
  fun self => (Ok a, self).

Definition raise {A : Type} (e : exn) : M A :=
  fun self => (Raise e, self).

Definition bind {A B : Type} (m : M A) (k : A -> M B) : M B :=
  fun self =>
    match m self with
    | (Ok a, self') => k a self'
    | (Raise e, self') => (Raise e, self')
    end.

Notation "x <- m ;; k" := (bind m (fun x => k))
  (at level 61, m at next level, right associativity).

(** Reading an attribute of [self]. *)
Definition attr {A : Type} (f : PhysicalOperator -> A) : M A :=
  fun self => (Ok (f self), self).

(** A method of the receiver's class that only reads the private state. *)
Definition query {A : Type}
  (f : forall C : Class, state C -> result A) : M A :=
  fun self => (f (class self) (priv self), self).

(** A method of the receiver's class that replaces the private state; the
    state is kept when the method raises. *)
Definition update
  (f : forall C : Class, state C -> result (state C)) : M unit :=
  fun self =>
    match f (class self) (priv self) with
    | Ok p => (Ok tt, set_priv self p)
    | Raise e => (Raise e, self)
    end.

(** Python's short-circuit [and] and [or] on booleans. *)
Definition and_ (x y : M bool) : M bool :=
  b <- x ;; if b then y else ret false.

Definition or_ (x y : M bool) : M bool :=
  b <- x ;; if b then ret true else y.

Definition len {A : Type} (l : list A) : Z := Z.of_nat (List.length l).

(** ** The class [PhysicalOperator] *)

(** The bodies the source gives to the methods a concrete operator is to
    override.  They do not look at the private state. *)
Definition PhysicalOperator_add_input {S : Type}
  (p : S) (refs : RefBundle) (input_index : Z) : result S :=
  Raise NotImplementedError.

Definition PhysicalOperator_has_next {S : Type} (p : S) : result bool :=
  Raise NotImplementedError.

Definition PhysicalOperator_get_next {S : Type} (p : S)
  : result (RefBundle * S) :=
  Raise NotImplementedError.

Definition PhysicalOperator_get_work_refs {S : Type} (p : S)
  : list ObjectRef :=
  [].

Definition PhysicalOperator_notify_work_completed {S : Type}
  (p : S) (work_ref : ObjectRef) : result S :=
  Raise NotImplementedError.

(** The class itself, instantiated without a subclass. *)
Definition PhysicalOperator_class : Class :=
  {| state := unit;
     c_add_input := PhysicalOperator_add_input;
     c_has_next := PhysicalOperator_has_next;
     c_get_next := PhysicalOperator_get_next;
     c_get_work_refs := PhysicalOperator_get_work_refs;
     c_notify_work_completed := PhysicalOperator_notify_work_completed;
     c_num_outputs_total := None |}.

(** *** Construction *)

(** What a caller may put in the list given to [__init__]. *)
Inductive PyObject : Type :=
| PyOperator (op : PhysicalOperator)
| PyOther.

(** The loop [for x in input_dependencies: assert isinstance(x,
    PhysicalOperator), x]: the operators of the list, or the assertion
    failing at the first object that is none. *)
Fixpoint check_dependencies (xs : list PyObject)
  : result (list PhysicalOperator) :=
  match xs with
  | [] => Ok []
  | PyOperator op :: xs' =>
      match check_dependencies xs' with
      | Ok ops => Ok (op :: ops)
      | Raise e => Raise e
      end
  | PyOther :: _ => Raise AssertionError
  end.

(** Python's [not input_dependencies] on a list. *)
Definition not_ {A : Type} (l : list A) : bool :=
  match l with [] => true | _ :: _ => false end.

(** [__init__(self, name, input_dependencies)], for an object of class [C]
    whose private state starts as [p]. *)
Definition __init__ (C : Class) (p : state C)
  (name : string) (input_dependencies : list PyObject)
  : result PhysicalOperator :=
  match check_dependencies input_dependencies with
  | Ok deps =>
      Ok (Build_PhysicalOperator C p name deps
            (not_ input_dependencies) false false)
  | Raise e => Raise e
  end.

(** [__reduce__]: an operator is not serializable. *)
Definition __reduce__ : M unit :=
  raise (ValueError "Operator is not serializable.").

(** *** Methods reached through the receiver's class *)

Definition add_input (refs : RefBundle) (input_index : Z) : M unit :=
  update (fun C p => c_add_input C p refs input_index).

Definition has_next : M bool :=
  query c_has_next.

Definition get_next : M RefBundle :=
  fun self =>
    match c_get_next (class self) (priv self) with
    | Ok (b, p) => (Ok b, set_priv self p)
    | Raise e => (Raise e, self)
    end.

Definition get_work_refs : M (list ObjectRef) :=
  query (fun C p => Ok (c_get_work_refs C p)).

Definition notify_work_completed (work_ref : ObjectRef) : M unit :=
  update (fun C p => c_notify_work_completed C p work_ref).

(** *** Methods defined by [PhysicalOperator] *)

Definition completed : M bool :=
  or_ (and_ (attr _inputs_complete)
         (and_ (refs <- get_work_refs ;; ret (len refs =? 0))
               (b <- has_next ;; ret (negb b))))
      (attr _dependents_complete).

Definition get_stats : M unit :=
  raise NotImplementedError.

Definition get_metrics : M (list (string * Z)) :=
  ret [].

Definition get_transformation_fn : M unit :=
  raise NotImplementedError.

Definition progress_str : M string :=
  ret "".

(** [x.num_outputs_total()] on an operator [x] of any class: the class's own
    method when it defines one, else the body of
    [PhysicalOperator.num_outputs_total], which asks the single upstream
    operator in the same way. *)
Fixpoint call_num_outputs_total (x : PhysicalOperator) : option Z :=
  match x with
  | Build_PhysicalOperator C p _ deps _ _ _ =>
      match c_num_outputs_total C with
      | Some f => f p
      | None =>
          match deps with
          | [up] => call_num_outputs_total up
          | _ => None
          end
      end
  end.

(** [PhysicalOperator.num_outputs_total(self)].  When the list has length 1
    its element 0 is its only element. *)
Definition num_outputs_total (self : PhysicalOperator) : option Z :=
  if len (input_dependencies self) =? 1 then
    match input_dependencies self with
    | up :: _ => call_num_outputs_total up
    | [] => None
    end
  else None.

Definition start (options : ExecutionOptions) : M unit :=
  fun self => (Ok tt, set_started self true).

Definition should_add_input : M bool :=
  ret true.

Definition need_more_inputs : M bool :=
  ret true.

Definition input_done (input_index : Z) : M unit :=
  ret tt.

Definition all_inputs_done : M unit :=
  fun self => (Ok tt, set_inputs_complete self true).

Definition all_dependents_complete : M unit :=
  fun self => (Ok tt, set_dependents_complete self true).

Definition throttling_disabled : M bool :=
  ret false.

Definition num_active_work_refs : M Z :=
  refs <- get_work_refs ;; ret (len refs).

Definition internal_queue_size : M Z :=
  ret 0.

Definition shutdown : M unit :=
  started <- attr _started ;;
  if negb started
  then raise (ValueError "Operator must be started before being shutdown.")
  else ret tt.

Definition current_resource_usage : M ExecutionResources :=
  ret ExecutionResources_new.

Definition base_resource_usage : M ExecutionResources :=
  ret ExecutionResources_new.

Definition incremental_resource_usage : M ExecutionResources :=
  ret ExecutionResources_new.

Definition notify_resource_usage
  (input_queue_size : Z) (under_resource_limits : bool) : M unit :=
  ret tt.

(** ** The executor's view: calls and what they return *)

Inductive Value : Type :=
| VNone
| VBool (b : bool)
| VInt (z : Z)
| VOptInt (o : option Z)
| VStr (s : string)
| VDict (d : list (string * Z))
| VBundle (b : RefBundle)
| VRefs (l : list ObjectRef)
| VResources (r : ExecutionResources).

Inductive Call : Type :=
| CReduce
| CCompleted
| CGetStats
| CGetMetrics
| CGetTransformationFn
| CProgressStr
| CNumOutputsTotal
| CStart (options : ExecutionOptions)
| CShouldAddInput
| CNeedMoreInputs
| CAddInput (refs : RefBundle) (input_index : Z)
| CInputDone (input_index : Z)
| CAllInputsDone
| CAllDependentsComplete
| CHasNext
| CGetNext
| CGetWorkRefs
| CThrottlingDisabled
| CNumActiveWorkRefs
| CInternalQueueSize
| CNotifyWorkCompleted (work_ref : ObjectRef)
| CShutdown
| CCurrentResourceUsage
| CBaseResourceUsage
| CIncrementalResourceUsage
| CNotifyResourceUsage (input_queue_size : Z) (under_resource_limits : bool).

Definition as_value {A : Type} (v : A -> Value) (m : M A) : M Value :=
  a <- m ;; ret (v a).

Definition none (_ : unit) : Value := VNone.

(** One call on an operator: what the caller gets and the operator after
    the call. *)
Definition exec (c : Call) : M Value :=
  match c with
  | CReduce => as_value none __reduce__
  | CCompleted => as_value VBool completed
  | CGetStats => as_value none get_stats
  | CGetMetrics => as_value VDict get_metrics
  | CGetTransformationFn => as_value none get_transformation_fn
  | CProgressStr => as_value VStr progress_str
  | CNumOutputsTotal => as_value VOptInt (attr call_num_outputs_total)
  | CStart options => as_value none (start options)
  | CShouldAddInput => as_value VBool should_add_input
  | CNeedMoreInputs => as_value VBool need_more_inputs
  | CAddInput refs i => as_value none (add_input refs i)
  | CInputDone i => as_value none (input_done i)
  | CAllInputsDone => as_value none all_inputs_done
  | CAllDependentsComplete => as_value none all_dependents_complete
  | CHasNext => as_value VBool has_next
  | CGetNext => as_value VBundle get_next
  | CGetWorkRefs => as_value VRefs get_work_refs
  | CThrottlingDisabled => as_value VBool throttling_disabled
  | CNumActiveWorkRefs => as_value VInt num_active_work_refs
  | CInternalQueueSize => as_value VInt internal_queue_size
  | CNotifyWorkCompleted r => as_value none (notify_work_completed r)
  | CShutdown => as_value none shutdown
  | CCurrentResourceUsage => as_value VResources current_resource_usage
  | CBaseResourceUsage => as_value VResources base_resource_usage
  | CIncrementalResourceUsage =>
      as_value VResources incremental_resource_usage
  | CNotifyResourceUsage n b => as_value none (notify_resource_usage n b)
  end.

(** The operator after a sequence of calls, made one after the other
    whatever each of them returns. *)
Fixpoint run (calls : list Call) (self : PhysicalOperator)
  : PhysicalOperator :=
  match calls with
  | [] => self
  | c :: calls' => run calls' (snd (exec c self))
  end.

(** *** The caller's side of the contract

    The clauses of the contract that the completion flag depends on: no
    [add_input] once [all_inputs_done] was called, [get_next] only when
    [has_next] answers true, [notify_work_completed] only for a reference
    that [get_work_refs] lists.  The contract's other clauses restrict the
    caller further and are not needed below. *)

Definition ObjectRef_eqb (a b : ObjectRef) : bool :=
  match a, b with ObjRef i, ObjRef j => i =? j end.

Definition is_true_result (r : result bool) : bool :=
  match r with Ok true => true | _ => false end.

Definition allowed (c : Call) (self : PhysicalOperator) : bool :=
  match c with
  | CAddInput _ _ => negb (_inputs_complete self)
  | CGetNext => is_true_result (fst (has_next self))
  | CNotifyWorkCompleted r =>
      existsb (ObjectRef_eqb r) (c_get_work_refs (class self) (priv self))
  | _ => true
  end.

Fixpoint respects_contract (calls : list Call) (self : PhysicalOperator)
  : bool :=
  match calls with
  | [] => true
  | c :: calls' =>
      allowed c self && respects_contract calls' (snd (exec c self))
  end.

(** A class implements [has_next] when the method returns a boolean in
    every private state, unlike the body [PhysicalOperator] gives it. *)
Definition implements_has_next (C : Class) : Prop :=
  forall p : state C, returns (c_has_next C p).

(** An operator is drained when its inputs are complete, no work reference
    is outstanding and no output is left. *)
Definition drained (self : PhysicalOperator) : Prop :=
  _inputs_complete self = true /\
  c_get_work_refs (class self) (priv self) = [] /\
  c_has_next (class self) (priv self) = Ok false.

(** The count that [num_active_work_refs] stands for: the number of work
    references that [get_work_refs] lists in this state. *)
Definition count_work_refs (self : PhysicalOperator) : Z :=
  Z.of_nat (List.length (c_get_work_refs (class self) (priv self))).

(** ** Two concrete operators

    Small subclasses in the manner of the class docstring's example, used to
    run the definitions on concrete objects: a source that hands out the
    bundles it was built with, and a map that launches one task for each
    input and queues the task's bundle when the task completes. *)

Record Buffer : Type := mkBuffer {
  num_outputs : Z;
  input_data : list RefBundle
}.

Definition Buffer_of (data : list RefBundle) : Buffer :=
  {| num_outputs := len data; input_data := data |}.

Definition SourceOperator : Class :=
  {| state := Buffer;
     c_add_input := PhysicalOperator_add_input;
     c_has_next := fun p => Ok (negb (not_ (input_data p)));
     c_get_next := fun p =>
       match input_data p with
       | b :: rest =>
           Ok (b, {| num_outputs := num_outputs p; input_data := rest |})
       | [] => Raise AssertionError
       end;
     c_get_work_refs := PhysicalOperator_get_work_refs;
     c_notify_work_completed := PhysicalOperator_notify_work_completed;
     c_num_outputs_total := Some (fun p => Some (num_outputs p)) |}.

Record TaskPool : Type := mkTaskPool {
  next_id : Z;
  active_tasks : list (ObjectRef * RefBundle);
  outputs : list RefBundle
}.

Fixpoint take_task (r : ObjectRef) (tasks : list (ObjectRef * RefBundle))
  : option (RefBundle * list (ObjectRef * RefBundle)) :=
  match tasks with
  | [] => None
  | (r', b) :: tasks' =>
      if ObjectRef_eqb r r' then Some (b, tasks')
      else
        match take_task r tasks' with
        | Some (b', rest) => Some (b', (r', b) :: rest)
        | None => None
        end
  end.

Definition MapOperator : Class :=
  {| state := TaskPool;
     c_add_input := fun p refs _ =>
       Ok {| next_id := next_id p + 1;
             active_tasks := active_tasks p ++ [(ObjRef (next_id p), refs)];
             outputs := outputs p |};
     c_has_next := fun p => Ok (negb (not_ (outputs p)));
     c_get_next := fun p =>
       match outputs p with
       | b :: rest =>
           Ok (b, {| next_id := next_id p;
                     active_tasks := active_tasks p;
                     outputs := rest |})
       | [] => Raise AssertionError
       end;
     c_get_work_refs := fun p => map fst (active_tasks p);
     c_notify_work_completed := fun p r =>
       match take_task r (active_tasks p) with
       | Some (b, rest) =>
           Ok {| next_id := next_id p;
                 active_tasks := rest;
                 outputs := outputs p ++ [b] |}
       | None => Raise AssertionError
       end;
     c_num_outputs_total := None |}.

Definition empty_pool : TaskPool :=
  {| next_id := 0; active_tasks := []; outputs := [] |}.

Definition bundle (n : Z) : RefBundle :=
  {| size_bytes := 10 * n; num_rows := n |}.

(** A source of three bundles, a map over it, a map over that map, and an
    operator of the bare class with two inputs. *)
Definition source_op : PhysicalOperator :=
  Build_PhysicalOperator SourceOperator
    (Buffer_of [bundle 1; bundle 2; bundle 3]) "Input" [] true false false.

Definition map_op : PhysicalOperator :=
  Build_PhysicalOperator MapOperator empty_pool "Map" [source_op]
    false false false.

Definition map_map_op : PhysicalOperator :=
  Build_PhysicalOperator MapOperator empty_pool "MapMap" [map_op]
    false false false.

Definition bare_op : PhysicalOperator :=
  Build_PhysicalOperator PhysicalOperator_class tt "Zip" [source_op; map_op]
    false false false.

Definition empty_source_op : PhysicalOperator :=
  Build_PhysicalOperator SourceOperator (Buffer_of []) "Empty" []
    true false false.

Definition default_options : ExecutionOptions :=
  {| resource_limits := ExecutionResources_zero |}.

(** A streaming execution of [map_op]: two inputs, their tasks completing
    out of order, outputs taken in between, the inputs then declared done. *)
Definition streaming_calls : list Call :=
  [ CStart default_options;
    CAddInput (bundle 1) 0;
    CAddInput (bundle 2) 0;
    CCompleted;
    CNotifyWorkCompleted (ObjRef 1);
    CHasNext;
    CGetNext;
    CInputDone 0;
    CAllInputsDone;
    CCompleted;
    CNotifyWorkCompleted (ObjRef 0);
    CGetNext ].

(** What remains to be called after it. *)
Definition closing_calls : list Call :=
  [ CCompleted;
    CHasNext;
    CAllInputsDone;
    CNumActiveWorkRefs;
    CAllDependentsComplete;
    CShutdown ].

(** ** Kinds of calls *)

Definition is_operator (x : PyObject) : bool :=
  match x with PyOperator _ => true | PyOther => false end.

Definition is_start (c : Call) : bool :=
  match c with CStart _ => true | _ => false end.

Definition is_all_inputs_done (c : Call) : bool :=
  match c with CAllInputsDone => true | _ => false end.

Definition is_all_dependents_complete (c : Call) : bool :=
  match c with CAllDependentsComplete => true | _ => false end.

(** The calls whose method assigns an attribute or reaches a method of the
    class that may replace the private state. *)
Definition assigns (c : Call) : bool :=
  match c with
  | CStart _ | CAllInputsDone | CAllDependentsComplete
  | CAddInput _ _ | CGetNext | CNotifyWorkCompleted _ => true
  | _ => false
  end.

(** The calls that touch what [completed] reads. *)
Definition touches_completion (c : Call) : bool :=
  match c with
  | CAllInputsDone | CAllDependentsComplete
  | CAddInput _ _ | CGetNext | CNotifyWorkCompleted _ => true
  | _ => false
  end.

(** What each call does on an operator of the bare class: the exception it
    raises, or [None] when it returns. *)
Definition bare_failure (c : Call) (self : PhysicalOperator) : option exn :=
  match c with
  | CReduce => Some (ValueError "Operator is not serializable.")
  | CGetStats | CGetTransformationFn
  | CAddInput _ _ | CHasNext | CGetNext | CNotifyWorkCompleted _ =>
      Some NotImplementedError
  | CCompleted =>
      if _inputs_complete self then Some NotImplementedError else None
  | CShutdown =>
      if _started self then None
      else Some (ValueError "Operator must be started before being shutdown.")
  | _ => None
  end.

(** [passes_total bottom top]: from [top] down to [bottom] every operator
    inherits [num_outputs_total] and has the next one as its only input
    dependency. *)
Inductive passes_total (bottom : PhysicalOperator)
  : PhysicalOperator -> Prop :=
| passes_here : passes_total bottom bottom
| passes_up (self up : PhysicalOperator) :
    c_num_outputs_total (class self) = None ->
    input_dependencies self = [up] ->
    passes_total bottom up ->
    passes_total bottom self.

(** * Properties *)

(** ** Completion *)

(** The value [completed] computes, with the order in which Python
    evaluates its operands made explicit: [has_next] is called only when the
    inputs are complete and no work reference is outstanding, and the
    dependents flag is read only when the conjunction is false. *)
Lemma completed_unfold (self : PhysicalOperator) :
  completed self =
  (if _inputs_complete self
      && (len (c_get_work_refs (class self) (priv self)) =? 0)
   then match c_has_next (class self) (priv self) with
        | Ok b => Ok (negb b || _dependents_complete self)
        | Raise e => Raise e
        end
   else Ok (_dependents_complete self),
   self).
Proof.
  unfold completed, or_, and_, bind, attr, get_work_refs, has_next, query, ret.
  destruct (_inputs_complete self); cbn; [ | reflexivity ].
  destruct (len (c_get_work_refs (class self) (priv self)) =? 0); cbn;
    [ | reflexivity ].
  destruct (c_has_next (class self) (priv self)) as [ [ | ] | e ];
    reflexivity.
Qed.

Lemma len_zero_nil {A : Type} (l : list A) :
  (len l =? 0) = true <-> l = [].
Proof.
  unfold len. destruct l as [ | a l ]; cbn; split; intro H;
    try reflexivity; try discriminate.
Qed.

(** [completed] does not change the operator. *)
Lemma completed_pure (self : PhysicalOperator) :
  snd (completed self) = self.
Proof. rewrite completed_unfold. reflexivity. Qed.

(** Without an implementation of [has_next] the conjunction cannot be
    evaluated: on an operator of the bare class whose inputs are complete,
    [completed] raises what [has_next] raises, whatever the dependents
    flag. *)
Lemma completed_unimplemented (self : PhysicalOperator) :
  class self = PhysicalOperator_class ->
  _inputs_complete self = true ->
  fst (completed self) = Raise NotImplementedError.
Proof.
  intros HC Hic. rewrite completed_unfold. destruct self as [C p n d ic dc s].
  cbn in *. subst C ic. reflexivity.
Qed.

(** C1. On an operator whose [has_next] returns a boolean, [completed]
    returns a boolean and changes nothing; it returns true exactly when
    the inputs are complete, [get_work_refs] returns the empty list and
    [has_next] returns false, or the dependents are complete; and after
    [all_dependents_complete] it returns true whatever the inputs flag, the
    outstanding work references and the outputs not yet taken. *)
Theorem completed_iff (self : PhysicalOperator)
  (Hnext : returns (fst (has_next self))) :
  snd (completed self) = self /\
  returns (fst (completed self)) /\
  (fst (completed self) = Ok true <->
     (_inputs_complete self = true /\
      fst (get_work_refs self) = Ok [] /\
      fst (has_next self) = Ok false)
     \/ _dependents_complete self = true) /\
  fst (completed (snd (all_dependents_complete self))) = Ok true.
Proof.
  destruct Hnext as [hn Hhn]. cbn in Hhn.
  split; [ apply completed_pure | ].
  split; [ | split ].
  - rewrite completed_unfold; cbn. rewrite Hhn.
    destruct (_ && _); eexists; reflexivity.
  - rewrite completed_unfold; cbn. rewrite Hhn.
    destruct (_inputs_complete self) eqn:Hic; cbn.
    + destruct (len _ =? 0) eqn:Hlen.
      * apply len_zero_nil in Hlen. rewrite Hlen.
        destruct hn, (_dependents_complete self); cbn; split; intro H;
          try reflexivity; try discriminate; auto;
          destruct H as [ (_ & _ & H) | H ]; discriminate.
      * split; intro H.
        -- right. congruence.
        -- destruct H as [ (_ & H & _) | H ]; [ | congruence ].
           injection H as H. rewrite H in Hlen. discriminate.
    + split; intro H.
      * right. congruence.
      * destruct H as [ (H & _) | H ]; [ discriminate | congruence ].
  - rewrite completed_unfold. destruct self as [C p n d ic dc s].
    cbn in *. rewrite Hhn. destruct (ic && _), hn; reflexivity.
Qed.

(** C1 on the map operator with one task outstanding: not completed, and
    completed once the dependents are. *)
Lemma completed_iff_witness :
  returns (fst (has_next (run [CAddInput (bundle 1) 0] map_op))) /\
  fst (completed (run [CAddInput (bundle 1) 0] map_op)) = Ok false /\
  fst (completed
         (snd (all_dependents_complete
                 (run [CAddInput (bundle 1) 0] map_op)))) = Ok true.
Proof.
  assert (H : returns (fst (has_next (run [CAddInput (bundle 1) 0] map_op))))
    by (exists false; reflexivity).
  split; [ exact H | split; [ reflexivity | ] ].
  apply (completed_iff (run [CAddInput (bundle 1) 0] map_op) H).
Defined.

(** ** Monotonic completion *)

Lemma as_value_snd {A : Type} (v : A -> Value) (m : M A)
  (self : PhysicalOperator) :
  snd (as_value v m self) = snd (m self).
Proof.
  unfold as_value, bind, ret. destruct (m self) as [ [ a | e ] s ];
    reflexivity.
Qed.

(** The operator after a call: three calls set a flag, three reach a method
    that may replace the private state, the others leave the operator as it
    is. *)
Lemma exec_snd (c : Call) (self : PhysicalOperator) :
  snd (exec c self) =
  match c with
  | CStart _ => set_started self true
  | CAllInputsDone => set_inputs_complete self true
  | CAllDependentsComplete => set_dependents_complete self true
  | CAddInput refs i =>
      match c_add_input (class self) (priv self) refs i with
      | Ok p => set_priv self p
      | Raise _ => self
      end
  | CGetNext =>
      match c_get_next (class self) (priv self) with
      | Ok (_, p) => set_priv self p
      | Raise _ => self
      end
  | CNotifyWorkCompleted r =>
      match c_notify_work_completed (class self) (priv self) r with
      | Ok p => set_priv self p
      | Raise _ => self
      end
  | _ => self
  end.
Proof.
  destruct c; cbn [exec]; rewrite as_value_snd; try reflexivity.
  - apply completed_pure.
  - unfold add_input, update.
    destruct (c_add_input (class self) (priv self) refs input_index);
      reflexivity.
  - unfold get_next.
    destruct (c_get_next (class self) (priv self)) as [ [ b p ] | e ];
      reflexivity.
  - unfold notify_work_completed, update.
    destruct (c_notify_work_completed (class self) (priv self) work_ref);
      reflexivity.
  - unfold shutdown, bind, attr. destruct (_started self); reflexivity.
Qed.

Ltac case_exec c self :=
  rewrite (exec_snd c self); destruct c; try reflexivity;
  match goal with
  | |- context [match ?x with _ => _ end] => destruct x as [ [ ] | ]
  | |- context [match ?x with _ => _ end] => destruct x
  | _ => idtac
  end.

(** A call never changes the class of the operator. *)
Lemma exec_class (c : Call) (self : PhysicalOperator) :
  class (snd (exec c self)) = class self.
Proof. case_exec c self; reflexivity. Qed.

(** No call clears a completion flag. *)
Lemma exec_inputs_complete (c : Call) (self : PhysicalOperator) :
  _inputs_complete self = true ->
  _inputs_complete (snd (exec c self)) = true.
Proof. intro H. case_exec c self; first [ exact H | reflexivity ]. Qed.

Lemma exec_dependents_complete (c : Call) (self : PhysicalOperator) :
  _dependents_complete self = true ->
  _dependents_complete (snd (exec c self)) = true.
Proof. intro H. case_exec c self; first [ exact H | reflexivity ]. Qed.

(** Once the dependents are complete, an operator that implements
    [has_next] is completed. *)
Lemma completed_of_dependents (self : PhysicalOperator) :
  implements_has_next (class self) ->
  _dependents_complete self = true ->
  fst (completed self) = Ok true.
Proof.
  intros Himpl Hdc. rewrite completed_unfold; cbn. rewrite Hdc.
  destruct (Himpl (priv self)) as [b Hb]. rewrite Hb.
  destruct (_ && _); [ rewrite orb_true_r | ]; reflexivity.
Qed.

Lemma completed_cases (self : PhysicalOperator) :
  fst (completed self) = Ok true ->
  drained self \/ _dependents_complete self = true.
Proof.
  rewrite completed_unfold; unfold drained; cbn. intro H.
  destruct (_dependents_complete self); [ right; reflexivity | left ].
  destruct (_inputs_complete self); [ | discriminate ].
  destruct (len _ =? 0) eqn:Hlen; [ | discriminate ].
  apply len_zero_nil in Hlen. cbn in H.
  destruct (c_has_next (class self) (priv self)) as [ [ | ] | e ];
    try discriminate.
  repeat split. exact Hlen.
Qed.

Lemma completed_of_drained (self : PhysicalOperator) :
  drained self -> fst (completed self) = Ok true.
Proof.
  intros (Hic & Hrefs & Hnext). rewrite completed_unfold; cbn.
  rewrite Hic, Hrefs, Hnext. reflexivity.
Qed.

(** The contract allows no call that changes a drained operator's private
    state, and the other calls keep it drained. *)
Lemma drained_step (c : Call) (self : PhysicalOperator) :
  allowed c self = true ->
  drained self ->
  drained (snd (exec c self)).
Proof.
  intros Hallowed (Hic & Hrefs & Hnext). rewrite exec_snd.
  destruct self as [C p n d ic dc s]. cbn in Hic, Hrefs, Hnext. subst ic.
  destruct c; cbn in Hallowed |- *;
    try (repeat split; assumption);
    try discriminate.
  - rewrite Hnext in Hallowed. discriminate.
  - rewrite Hrefs in Hallowed. discriminate.
Qed.

Lemma completed_step (c : Call) (self : PhysicalOperator) :
  implements_has_next (class self) ->
  allowed c self = true ->
  fst (completed self) = Ok true ->
  fst (completed (snd (exec c self))) = Ok true.
Proof.
  intros Himpl Hallowed Hdone.
  destruct (completed_cases self Hdone) as [ Hdr | Hdc ].
  - apply completed_of_drained, drained_step; assumption.
  - apply completed_of_dependents.
    + rewrite exec_class. exact Himpl.
    + apply exec_dependents_complete. exact Hdc.
Qed.

Lemma run_app (before after : list Call) (self : PhysicalOperator) :
  run (before ++ after) self = run after (run before self).
Proof.
  revert self. induction before as [ | c before IH ]; intro self; cbn;
    [ reflexivity | apply IH ].
Qed.

Lemma respects_contract_app (before after : list Call)
  (self : PhysicalOperator) :
  respects_contract (before ++ after) self =
  respects_contract before self && respects_contract after (run before self).
Proof.
  revert self. induction before as [ | c before IH ]; intro self; cbn;
    [ reflexivity | ].
  rewrite IH. apply andb_assoc.
Qed.

Lemma run_class (calls : list Call) (self : PhysicalOperator) :
  class (run calls self) = class self.
Proof.
  revert self. induction calls as [ | c calls IH ]; intro self; cbn;
    [ reflexivity | ].
  rewrite IH. apply exec_class.
Qed.

Lemma run_inputs_complete (calls : list Call) (self : PhysicalOperator) :
  _inputs_complete self = true -> _inputs_complete (run calls self) = true.
Proof.
  revert self. induction calls as [ | c calls IH ]; intros self H; cbn;
    [ exact H | ].
  apply IH, exec_inputs_complete, H.
Qed.

Lemma run_dependents_complete (calls : list Call) (self : PhysicalOperator) :
  _dependents_complete self = true ->
  _dependents_complete (run calls self) = true.
Proof.
  revert self. induction calls as [ | c calls IH ]; intros self H; cbn;
    [ exact H | ].
  apply IH, exec_dependents_complete, H.
Qed.

Lemma completed_run (calls : list Call) (self : PhysicalOperator) :
  implements_has_next (class self) ->
  respects_contract calls self = true ->
  fst (completed self) = Ok true ->
  fst (completed (run calls self)) = Ok true.
Proof.
  revert self. induction calls as [ | c calls IH ];
    intros self Himpl Hcontract Hdone; cbn in *; [ exact Hdone | ].
  apply andb_prop in Hcontract. destruct Hcontract as [ Hc Hcalls ].
  apply IH.
  - rewrite exec_class. exact Himpl.
  - exact Hcalls.
  - apply completed_step; assumption.
Qed.

(** C2. Take an operator whose class implements [has_next] and a sequence
    of calls that respects the contract.  If [completed] returns true after
    the first part of the sequence, it returns true after the whole
    sequence; and no call, on any operator, clears the inputs flag or the
    dependents flag once it is set. *)
Theorem completed_monotonic (before after : list Call)
  (self : PhysicalOperator)
  (Himpl : implements_has_next (class self))
  (Hcontract : respects_contract (before ++ after) self = true)
  (Hdone : fst (completed (run before self)) = Ok true) :
  fst (completed (run (before ++ after) self)) = Ok true /\
  (forall (c : Call) (op : PhysicalOperator),
     _inputs_complete op = true ->
     _inputs_complete (snd (exec c op)) = true) /\
  (forall (c : Call) (op : PhysicalOperator),
     _dependents_complete op = true ->
     _dependents_complete (snd (exec c op)) = true).
Proof.
  rewrite run_app. rewrite respects_contract_app in Hcontract.
  apply andb_prop in Hcontract. destruct Hcontract as [ _ Hafter ].
  split; [ | split ].
  - apply completed_run; try assumption.
    rewrite run_class. exact Himpl.
  - exact exec_inputs_complete.
  - exact exec_dependents_complete.
Qed.

Lemma MapOperator_implements_has_next : implements_has_next MapOperator.
Proof. intro p. eexists. reflexivity. Qed.

(** C2 on the streaming execution of the map operator: completed once the
    last output is taken, and still completed after the closing calls. *)
Lemma completed_monotonic_witness :
  respects_contract (streaming_calls ++ closing_calls) map_op = true /\
  fst (completed (run streaming_calls map_op)) = Ok true /\
  fst (completed (run (streaming_calls ++ closing_calls) map_op)) = Ok true.
Proof.
  split; [ reflexivity | split; [ reflexivity | ] ].
  apply (completed_monotonic streaming_calls closing_calls map_op).
  - exact MapOperator_implements_has_next.
  - reflexivity.
  - reflexivity.
Defined.

(** ** Calls before [start] *)

(** [shutdown] on an operator that was not started: the error, and the
    operator as it was. *)
Lemma shutdown_unstarted (self : PhysicalOperator) :
  _started self = false ->
  shutdown self =
  (Raise (ValueError "Operator must be started before being shutdown."),
   self).
Proof.
  intro H. unfold shutdown, bind, attr, raise. rewrite H. reflexivity.
Qed.

(** A constructed operator has the class, the private state and the name it
    was given, the operators of the list as dependencies, and is neither
    started nor told that its dependents are complete. *)
Lemma init_fields (C : Class) (p : state C) (n : string)
  (deps : list PyObject) (self : PhysicalOperator) :
  __init__ C p n deps = Ok self ->
  exists ops : list PhysicalOperator,
    check_dependencies deps = Ok ops /\
    self = Build_PhysicalOperator C p n ops (not_ deps) false false.
Proof.
  unfold __init__. destruct (check_dependencies deps) as [ ops | e ];
    intro H; [ | discriminate ].
  exists ops. split; [ reflexivity | ]. injection H as H. symmetry. exact H.
Qed.

Lemma check_dependencies_empty (deps : list PyObject)
  (ops : list PhysicalOperator) :
  check_dependencies deps = Ok ops -> not_ deps = not_ ops.
Proof.
  destruct deps as [ | [ op | ] deps ]; cbn; intro H.
  - injection H as H. subst ops. reflexivity.
  - destruct (check_dependencies deps); [ | discriminate ].
    injection H as H. subst ops. reflexivity.
  - discriminate.
Qed.

(** The claim that every lifecycle method fails before [start] does not
    hold: on the map operator, not started, [all_inputs_done] returns and
    sets the flag, [all_dependents_complete] returns and sets the flag and
    [input_done] returns and does nothing. *)
Lemma lifecycle_before_start_returns :
  _started map_op = false /\
  exec CAllInputsDone map_op = (Ok VNone, set_inputs_complete map_op true) /\
  exec CAllDependentsComplete map_op =
    (Ok VNone, set_dependents_complete map_op true) /\
  exec (CInputDone 0) map_op = (Ok VNone, map_op) /\
  ~ raises (fst (exec CAllInputsDone map_op)) /\
  ~ raises (fst (exec CAllDependentsComplete map_op)) /\
  ~ raises (fst (exec (CInputDone 0) map_op)).
Proof.
  repeat split; try reflexivity; intros [ e H ]; discriminate.
Qed.

(** C3, amended.  On an operator that was not started, [shutdown] raises
    the usage error at once and changes nothing.  The other lifecycle
    methods do not look at the started flag: [input_done] returns and does
    nothing, [all_inputs_done] and [all_dependents_complete] return and set
    their flag, and [add_input], [get_next] and [has_next] give what they
    give on the started operator, which for the bodies of the bare class is
    the not-implemented error. *)
Theorem lifecycle_before_start (self : PhysicalOperator)
  (Hunstarted : _started self = false) :
  exec CShutdown self =
    (Raise (ValueError "Operator must be started before being shutdown."),
     self) /\
  (forall i : Z, exec (CInputDone i) self = (Ok VNone, self)) /\
  exec CAllInputsDone self = (Ok VNone, set_inputs_complete self true) /\
  exec CAllDependentsComplete self =
    (Ok VNone, set_dependents_complete self true) /\
  (forall (refs : RefBundle) (i : Z),
     fst (exec (CAddInput refs i) self) =
     fst (exec (CAddInput refs i) (set_started self true))) /\
  fst (exec CGetNext self) = fst (exec CGetNext (set_started self true)) /\
  fst (exec CHasNext self) = fst (exec CHasNext (set_started self true)) /\
  (class self = PhysicalOperator_class ->
   (forall (refs : RefBundle) (i : Z),
      fst (exec (CAddInput refs i) self) = Raise NotImplementedError) /\
   fst (exec CGetNext self) = Raise NotImplementedError /\
   fst (exec CHasNext self) = Raise NotImplementedError).
Proof.
  split.
  { cbn [exec]. unfold as_value, bind.
    rewrite (shutdown_unstarted self Hunstarted). reflexivity. }
  do 3 (split; [ reflexivity | ]).
  destruct self as [C p n d ic dc s]. clear Hunstarted.
  split; [ | split; [ | split ] ].
  - intros refs i. cbn. unfold add_input, update, as_value, bind; cbn.
    destruct (c_add_input C p refs i); reflexivity.
  - cbn. unfold get_next, as_value, bind; cbn.
    destruct (c_get_next C p) as [ [ b q ] | e ]; reflexivity.
  - cbn. unfold has_next, query, as_value, bind; cbn.
    destruct (c_has_next C p); reflexivity.
  - intro HC. cbn in HC. subst C. repeat split.
Qed.

(** C3 on the map operator and on the operator of the bare class, neither
    of them started. *)
Lemma lifecycle_before_start_witness :
  _started map_op = false /\
  fst (exec CShutdown map_op) =
    Raise (ValueError "Operator must be started before being shutdown.") /\
  fst (exec CHasNext bare_op) = Raise NotImplementedError.
Proof.
  split; [ reflexivity | split ].
  - apply (f_equal fst (proj1 (lifecycle_before_start map_op eq_refl))).
  - apply (lifecycle_before_start bare_op eq_refl). reflexivity.
Defined.

(** C4. On an operator that was constructed and not started, [shutdown]
    raises the usage error and the operator after the call is the operator
    before it: class, private state (queued outputs, work references),
    name, dependencies and the three flags. *)
Theorem shutdown_before_start (C : Class) (p : state C) (n : string)
  (deps : list PyObject) (self : PhysicalOperator)
  (Hinit : __init__ C p n deps = Ok self) :
  _started self = false /\
  shutdown self =
    (Raise (ValueError "Operator must be started before being shutdown."),
     self) /\
  exec CShutdown self =
    (Raise (ValueError "Operator must be started before being shutdown."),
     self).
Proof.
  destruct (init_fields C p n deps self Hinit) as (ops & _ & Hself).
  assert (Hs : _started self = false) by (subst self; reflexivity).
  split; [ exact Hs | split ].
  - apply shutdown_unstarted, Hs.
  - cbn [exec]. unfold as_value, bind.
    rewrite (shutdown_unstarted self Hs). reflexivity.
Qed.

(** C4 on the map operator, constructed over the source. *)
Lemma shutdown_before_start_witness :
  __init__ MapOperator empty_pool "Map" [PyOperator source_op] = Ok map_op /\
  shutdown map_op =
    (Raise (ValueError "Operator must be started before being shutdown."),
     map_op).
Proof.
  split; [ reflexivity | ].
  apply (shutdown_before_start MapOperator empty_pool "Map"
           [PyOperator source_op] map_op eq_refl).
Defined.

(** ** Construction and the inputs flag *)

(** C6. Right after construction the inputs flag is true exactly when the
    operator has no input dependency; and afterwards a call that finds the
    flag false and leaves it true is [all_inputs_done], which does set
    it. *)
Theorem inputs_complete_init (C : Class) (p : state C) (n : string)
  (deps : list PyObject) (self : PhysicalOperator)
  (Hinit : __init__ C p n deps = Ok self) :
  (_inputs_complete self = true <-> input_dependencies self = []) /\
  (forall (c : Call) (op : PhysicalOperator),
     _inputs_complete op = false ->
     _inputs_complete (snd (exec c op)) = true ->
     c = CAllInputsDone) /\
  (forall op : PhysicalOperator,
     _inputs_complete (snd (exec CAllInputsDone op)) = true).
Proof.
  destruct (init_fields C p n deps self Hinit) as (ops & Hops & Hself).
  split; [ | split ].
  - subst self. cbn. rewrite (check_dependencies_empty deps ops Hops).
    destruct ops; cbn; split; intro H; try reflexivity; discriminate.
  - intros c op Hfalse Htrue. rewrite exec_snd in Htrue.
    destruct op as [C' p' n' d' ic dc s]. cbn in Hfalse. subst ic.
    destruct c; cbn in Htrue; try discriminate; try reflexivity.
    + destruct (c_add_input C' p' refs input_index); discriminate.
    + destruct (c_get_next C' p') as [ [ b q ] | e ]; discriminate.
    + destruct (c_notify_work_completed C' p' work_ref); discriminate.
  - intro op. destruct op; reflexivity.
Qed.

(** C6 on the source, built without dependencies, and on the map operator,
    built over the source. *)
Lemma inputs_complete_init_witness :
  __init__ SourceOperator (Buffer_of [bundle 1; bundle 2; bundle 3])
    "Input" [] = Ok source_op /\
  (_inputs_complete source_op = true <-> input_dependencies source_op = []) /\
  __init__ MapOperator empty_pool "Map" [PyOperator source_op] = Ok map_op /\
  (_inputs_complete map_op = true <-> input_dependencies map_op = []).
Proof.
  split; [ reflexivity | split; [ | split; [ reflexivity | ] ] ].
  - apply (inputs_complete_init SourceOperator
             (Buffer_of [bundle 1; bundle 2; bundle 3]) "Input" []
             source_op eq_refl).
  - apply (inputs_complete_init MapOperator empty_pool "Map"
             [PyOperator source_op] map_op eq_refl).
Defined.

(** C10. An operator constructed without input dependencies, with no work
    reference outstanding and no output to hand out, is completed as soon
    as it is constructed. *)
Theorem completed_after_init (C : Class) (p : state C) (n : string)
  (self : PhysicalOperator)
  (Hinit : __init__ C p n [] = Ok self)
  (Hrefs : fst (get_work_refs self) = Ok [])
  (Hnext : fst (has_next self) = Ok false) :
  _started self = false /\
  fst (completed self) = Ok true.
Proof.
  destruct (init_fields C p n [] self Hinit) as (ops & _ & Hself).
  split; [ subst self; reflexivity | ].
  apply completed_of_drained. cbn in Hrefs, Hnext.
  injection Hrefs as Hrefs.
  repeat split; try assumption. subst self. reflexivity.
Qed.

(** C10 on a source built with no bundle. *)
Lemma completed_after_init_witness :
  __init__ SourceOperator (Buffer_of []) "Empty" [] = Ok empty_source_op /\
  fst (get_work_refs empty_source_op) = Ok [] /\
  fst (has_next empty_source_op) = Ok false /\
  fst (completed empty_source_op) = Ok true.
Proof.
  do 3 (split; [ reflexivity | ]).
  apply (completed_after_init SourceOperator (Buffer_of []) "Empty"
           empty_source_op eq_refl eq_refl eq_refl).
Defined.

(** ** The number of outputs *)

(** Calling [num_outputs_total] on an operator runs its class's method, or
    the body of [PhysicalOperator.num_outputs_total] when the class has
    none. *)
Lemma call_num_outputs_total_unfold (x : PhysicalOperator) :
  call_num_outputs_total x =
  match c_num_outputs_total (class x) with
  | Some f => f (priv x)
  | None => num_outputs_total x
  end.
Proof.
  destruct x as [C p n d ic dc s]. unfold num_outputs_total. cbn.
  destruct (c_num_outputs_total C); [ reflexivity | ].
  destruct d as [ | up [ | up' d ] ]; try reflexivity.
  unfold len. cbn [List.length input_dependencies].
  replace (Z.of_nat (S (S (List.length d))) =? 1) with false;
    [ reflexivity | ].
  symmetry. apply Z.eqb_neq. lia.
Qed.

(** C5. For an operator with exactly one input dependency, the method of
    [PhysicalOperator] returns what calling [num_outputs_total] on that
    upstream operator returns, and so does a call on the operator itself
    when its class inherits the method. *)
Theorem num_outputs_total_single (self : PhysicalOperator)
  (Hone : List.length (input_dependencies self) = 1%nat) :
  exists up : PhysicalOperator,
    input_dependencies self = [up] /\
    num_outputs_total self = call_num_outputs_total up /\
    (c_num_outputs_total (class self) = None ->
     call_num_outputs_total self = call_num_outputs_total up).
Proof.
  destruct (input_dependencies self) as [ | up [ | up' d ] ] eqn:Hdeps;
    try discriminate.
  exists up. split; [ reflexivity | ].
  assert (H : num_outputs_total self = call_num_outputs_total up).
  { unfold num_outputs_total. rewrite Hdeps. reflexivity. }
  split; [ exact H | ].
  intro Hinherit. rewrite call_num_outputs_total_unfold, Hinherit. exact H.
Qed.

(** C5 on the map over the map over the source of three bundles. *)
Lemma num_outputs_total_single_witness :
  List.length (input_dependencies map_map_op) = 1%nat /\
  num_outputs_total map_map_op = Some 3 /\
  call_num_outputs_total map_op = Some 3.
Proof.
  split; [ reflexivity | ].
  destruct (num_outputs_total_single map_map_op eq_refl)
    as (up & Hup & Htotal & _).
  injection Hup as Hup. subst up.
  split; [ rewrite Htotal | ]; reflexivity.
Defined.

(** C9. For an operator with no input dependency, or with two or more, the
    method of [PhysicalOperator] returns [None], and so does a call on the
    operator when its class inherits the method. *)
Theorem num_outputs_total_unknown (self : PhysicalOperator)
  (Hlen : List.length (input_dependencies self) = 0%nat \/
          (2 <= List.length (input_dependencies self))%nat) :
  num_outputs_total self = None /\
  (c_num_outputs_total (class self) = None ->
   call_num_outputs_total self = None).
Proof.
  assert (H : num_outputs_total self = None).
  { unfold num_outputs_total, len.
    destruct (Z.of_nat (List.length (input_dependencies self)) =? 1)
      eqn:Hone; [ | reflexivity ].
    apply Z.eqb_eq in Hone. lia. }
  split; [ exact H | ].
  intro Hinherit. rewrite call_num_outputs_total_unfold, Hinherit. exact H.
Qed.

(** C9 on the operator of the bare class with two inputs and on the
    source's inherited method. *)
Lemma num_outputs_total_unknown_witness :
  (2 <= List.length (input_dependencies bare_op))%nat /\
  call_num_outputs_total bare_op = None /\
  List.length (input_dependencies source_op) = 0%nat /\
  num_outputs_total source_op = None.
Proof.
  split; [ cbn; lia | split; [ | split; [ reflexivity | ] ] ].
  - apply (num_outputs_total_unknown bare_op).
    + right. cbn. lia.
    + reflexivity.
  - apply (num_outputs_total_unknown source_op). left. reflexivity.
Defined.

(** ** Work references and resources *)

(** C8. In every state [num_active_work_refs] returns the length of the
    list that [get_work_refs] returns in that state, and neither call
    changes the operator. *)
Theorem num_active_work_refs_len (self : PhysicalOperator) :
  exists refs : list ObjectRef,
    get_work_refs self = (Ok refs, self) /\
    num_active_work_refs self = (Ok (count_work_refs self), self) /\
    count_work_refs self = Z.of_nat (List.length refs).
Proof.
  exists (c_get_work_refs (class self) (priv self)).
  repeat split.
Qed.

(** C7. In every state each of the three estimators returns, changes
    nothing, and returns a vector whose cpu, gpu and memory components are
    at least zero. *)
Theorem resource_usage_nonnegative (self : PhysicalOperator) :
  (exists r : ExecutionResources,
     base_resource_usage self = (Ok r, self) /\ nonnegative r) /\
  (exists r : ExecutionResources,
     current_resource_usage self = (Ok r, self) /\ nonnegative r) /\
  (exists r : ExecutionResources,
     incremental_resource_usage self = (Ok r, self) /\ nonnegative r).
Proof.
  assert (H : nonnegative ExecutionResources_new).
  { unfold nonnegative; cbn. repeat split; apply Qle_refl. }
  repeat split; exists ExecutionResources_new; split;
    first [ reflexivity | exact H ].
Qed.

(** * Further properties of the class *)

(** ** Construction *)

Lemma check_dependencies_spec (deps : list PyObject) :
  match check_dependencies deps with
  | Ok ops => forallb is_operator deps = true /\ map PyOperator ops = deps
  | Raise e => e = AssertionError /\ forallb is_operator deps = false
  end.
Proof.
  induction deps as [ | [ op | ] deps IH ]; cbn.
  - split; reflexivity.
  - destruct (check_dependencies deps) as [ ops | e ].
    + destruct IH as [ Hall Hmap ]. split; [ exact Hall | ].
      cbn. rewrite Hmap. reflexivity.
    + exact IH.
  - split; reflexivity.
Qed.

(** X1. [__init__] returns an operator exactly when every object of the
    list is an operator.  The operator then has the class, the private
    state and the name it was given, the objects of the list, in their
    order, as input dependencies, and is neither started nor told that its
    dependents are complete.  Otherwise [__init__] raises the assertion
    error. *)
Theorem init_checks_dependencies (C : Class) (p : state C) (n : string)
  (deps : list PyObject) :
  match __init__ C p n deps with
  | Ok self =>
      forallb is_operator deps = true /\
      map PyOperator (input_dependencies self) = deps /\
      self = Build_PhysicalOperator C p n (input_dependencies self)
               (not_ deps) false false
  | Raise e => e = AssertionError /\ forallb is_operator deps = false
  end.
Proof.
  unfold __init__. pose proof (check_dependencies_spec deps) as H.
  destruct (check_dependencies deps) as [ ops | e ].
  - destruct H as [ Hall Hmap ]. cbn. repeat split; assumption.
  - exact H.
Qed.

(** ** The flags along a sequence of calls *)

Lemma exec_flags (c : Call) (self : PhysicalOperator) :
  _started (snd (exec c self)) = _started self || is_start c /\
  _inputs_complete (snd (exec c self)) =
    _inputs_complete self || is_all_inputs_done c /\
  _dependents_complete (snd (exec c self)) =
    _dependents_complete self || is_all_dependents_complete c.
Proof.
  rewrite exec_snd. destruct self as [C p n d ic dc s].
  destruct c; cbn;
    try match goal with
      | |- context [match ?x with _ => _ end] => destruct x as [ [ ] | ]
      | |- context [match ?x with _ => _ end] => destruct x
      end;
    cbn; rewrite ?orb_false_r, ?orb_true_r; repeat split.
Qed.

(** The three flags after a sequence of calls. *)
Lemma run_flags (calls : list Call) (self : PhysicalOperator) :
  _started (run calls self) = _started self || existsb is_start calls /\
  _inputs_complete (run calls self) =
    _inputs_complete self || existsb is_all_inputs_done calls /\
  _dependents_complete (run calls self) =
    _dependents_complete self || existsb is_all_dependents_complete calls.
Proof.
  revert self. induction calls as [ | c calls IH ]; intro self; cbn.
  - rewrite !orb_false_r. repeat split.
  - destruct (IH (snd (exec c self))) as (Hs & Hi & Hd).
    destruct (exec_flags c self) as (Hs' & Hi' & Hd').
    rewrite Hs, Hi, Hd, Hs', Hi', Hd', !orb_assoc. repeat split.
Qed.

(** X2. After any sequence of calls the operator is started exactly when
    it was started before or [start] is among the calls; its inputs are
    complete exactly when they were before or [all_inputs_done] is among
    the calls; its dependents are complete exactly when they were before or
    [all_dependents_complete] is among the calls.  No other call, returning
    or raising, sets or clears a flag. *)
Theorem flags_after_run (calls : list Call) (self : PhysicalOperator) :
  _started (run calls self) = _started self || existsb is_start calls /\
  _inputs_complete (run calls self) =
    _inputs_complete self || existsb is_all_inputs_done calls /\
  _dependents_complete (run calls self) =
    _dependents_complete self || existsb is_all_dependents_complete calls.
Proof. exact (run_flags calls self). Qed.

(** X3. After any sequence of calls [shutdown] returns exactly when the
    operator was started before the sequence or [start] is among its
    calls, and raises the usage error otherwise; either way it leaves the
    operator as it is, so that it does not stand in the way of a second
    [shutdown]. *)
Theorem shutdown_after_run (calls : list Call) (self : PhysicalOperator) :
  exec CShutdown (run calls self) =
  (if _started self || existsb is_start calls
   then Ok VNone
   else Raise (ValueError "Operator must be started before being shutdown."),
   run calls self) /\
  exec CShutdown (snd (exec CShutdown (run calls self))) =
  exec CShutdown (run calls self).
Proof.
  destruct (run_flags calls self) as (Hs & _ & _).
  assert (H : exec CShutdown (run calls self) =
              (if _started self || existsb is_start calls
               then Ok VNone
               else Raise (ValueError
                      "Operator must be started before being shutdown."),
               run calls self)).
  { cbn [exec]. unfold as_value, shutdown, bind, attr, raise, ret.
    rewrite Hs. destruct (_started self || existsb is_start calls);
      reflexivity. }
  split; [ exact H | ]. rewrite H. cbn [snd]. exact H.
Qed.

(** ** What the calls leave alone *)

Lemma exec_frame (c : Call) (self : PhysicalOperator) :
  name (snd (exec c self)) = name self /\
  input_dependencies (snd (exec c self)) = input_dependencies self.
Proof.
  rewrite exec_snd. destruct self as [C p n d ic dc s].
  destruct c; cbn;
    try match goal with
      | |- context [match ?x with _ => _ end] => destruct x as [ [ ] | ]
      | |- context [match ?x with _ => _ end] => destruct x
      end;
    split; reflexivity.
Qed.

Lemma run_frame (calls : list Call) (self : PhysicalOperator) :
  name (run calls self) = name self /\
  input_dependencies (run calls self) = input_dependencies self.
Proof.
  revert self. induction calls as [ | c calls IH ]; intro self; cbn.
  - split; reflexivity.
  - destruct (IH (snd (exec c self))) as [ Hn Hd ].
    destruct (exec_frame c self) as [ Hn' Hd' ].
    rewrite Hn, Hd, Hn', Hd'. split; reflexivity.
Qed.

(** X4. No sequence of calls on an operator changes its class, its name or
    its list of input dependencies; and when its class inherits
    [num_outputs_total], a call of that method returns after the sequence
    what it returned before. *)
Theorem run_keeps_dependencies (calls : list Call) (self : PhysicalOperator) :
  class (run calls self) = class self /\
  name (run calls self) = name self /\
  input_dependencies (run calls self) = input_dependencies self /\
  (c_num_outputs_total (class self) = None ->
   call_num_outputs_total (run calls self) = call_num_outputs_total self).
Proof.
  destruct (run_frame calls self) as [ Hn Hd ].
  split; [ apply run_class | split; [ exact Hn | split; [ exact Hd | ] ] ].
  intro Hinherit.
  assert (Hinherit' : c_num_outputs_total (class (run calls self)) = None)
    by (rewrite run_class; exact Hinherit).
  rewrite !call_num_outputs_total_unfold, Hinherit, Hinherit'.
  unfold num_outputs_total. rewrite Hd. reflexivity.
Qed.

(** X4 on the map over the map over the source, after the streaming
    calls. *)
Lemma run_keeps_dependencies_witness :
  c_num_outputs_total (class map_map_op) = None /\
  call_num_outputs_total (run streaming_calls map_map_op) = Some 3.
Proof.
  split; [ reflexivity | ].
  rewrite (proj2 (proj2 (proj2
             (run_keeps_dependencies streaming_calls map_map_op)))
             eq_refl).
  reflexivity.
Defined.

(** X5. A call other than [start], [all_inputs_done],
    [all_dependents_complete], [add_input], [get_next] and
    [notify_work_completed] leaves the operator exactly as it was, whether
    it returns or raises; and so does a sequence of such calls. *)
Theorem run_without_assignment (calls : list Call) (self : PhysicalOperator)
  (Hcalls : existsb assigns calls = false) :
  run calls self = self.
Proof.
  revert self. induction calls as [ | c calls IH ]; intro self; cbn in *;
    [ reflexivity | ].
  apply orb_false_elim in Hcalls. destruct Hcalls as [ Hc Hcalls ].
  rewrite exec_snd. destruct c; try discriminate; apply IH, Hcalls.
Qed.

(** X5 on the map operator with one task launched: a round of questions, a
    failed serialization and a shutdown that raises. *)
Lemma run_without_assignment_witness :
  run [CCompleted; CGetStats; CGetMetrics; CProgressStr; CNumOutputsTotal;
       CShouldAddInput; CNeedMoreInputs; CInputDone 0; CHasNext;
       CGetWorkRefs; CThrottlingDisabled; CNumActiveWorkRefs;
       CInternalQueueSize; CShutdown; CCurrentResourceUsage;
       CNotifyResourceUsage 4 false; CReduce]
      (run [CAddInput (bundle 1) 0] map_op)
  = run [CAddInput (bundle 1) 0] map_op.
Proof.
  apply run_without_assignment. reflexivity.
Defined.

(** ** Completion along a sequence of calls *)

(** X6. A call other than [all_inputs_done], [all_dependents_complete],
    [add_input], [get_next] and [notify_work_completed] does not change
    what [completed] gives, as a value or as an exception: neither [start]
    nor [shutdown] nor [input_done] completes an operator or reopens it. *)
Theorem completed_unchanged (c : Call) (self : PhysicalOperator)
  (Hc : touches_completion c = false) :
  fst (completed (snd (exec c self))) = fst (completed self).
Proof.
  rewrite exec_snd. destruct c; try discriminate; try reflexivity.
  rewrite !completed_unfold. destruct self as [C p n d ic dc s].
  reflexivity.
Qed.

(** X6 on the drained source: completed before [start], after it, and
    after [shutdown]. *)
Lemma completed_unchanged_witness :
  fst (completed (snd (exec (CStart default_options) empty_source_op))) =
    Ok true /\
  fst (completed (snd (exec CShutdown empty_source_op))) = Ok true.
Proof.
  split.
  - rewrite (completed_unchanged (CStart default_options) empty_source_op
               eq_refl).
    reflexivity.
  - rewrite (completed_unchanged CShutdown empty_source_op eq_refl).
    reflexivity.
Defined.

(** X7. An operator whose inputs and dependents are not complete stays not
    completed through every sequence of calls that has neither
    [all_inputs_done] nor [all_dependents_complete] in it: [completed]
    returns false without calling [has_next], whatever the class, and in
    particular after [input_done] was called for every input. *)
Theorem not_completed_before_inputs_done (calls : list Call)
  (self : PhysicalOperator)
  (Hic : _inputs_complete self = false)
  (Hdc : _dependents_complete self = false)
  (Hinputs : existsb is_all_inputs_done calls = false)
  (Hdependents : existsb is_all_dependents_complete calls = false) :
  completed (run calls self) = (Ok false, run calls self).
Proof.
  destruct (run_flags calls self) as (_ & Hi & Hd).
  rewrite completed_unfold, Hi, Hd, Hic, Hdc, Hinputs, Hdependents.
  reflexivity.
Qed.

(** X7 on the operator of the bare class with two inputs, both of them
    declared done one by one. *)
Lemma not_completed_before_inputs_done_witness :
  fst (completed
         (run [CStart default_options; CInputDone 0; CInputDone 1] bare_op))
  = Ok false.
Proof.
  rewrite (not_completed_before_inputs_done
             [CStart default_options; CInputDone 0; CInputDone 1] bare_op
             eq_refl eq_refl eq_refl eq_refl).
  reflexivity.
Defined.

(** ** The bare class *)

(** X8. On an operator of the bare class [__reduce__] raises the value
    error; [get_stats], [get_transformation_fn], [add_input], [has_next],
    [get_next] and [notify_work_completed] raise the not-implemented error;
    [completed] raises it exactly when the inputs are complete; [shutdown]
    raises the value error exactly when the operator is not started; every
    other call returns.  A call that raises leaves the operator as it
    was. *)
Theorem bare_class_failures (c : Call) (self : PhysicalOperator)
  (Hclass : class self = PhysicalOperator_class) :
  match bare_failure c self with
  | Some e => exec c self = (Raise e, self)
  | None => returns (fst (exec c self))
  end.
Proof.
  destruct self as [C p n d ic dc s]. cbn in Hclass. subst C.
  destruct c; cbn; try reflexivity; try (eexists; reflexivity).
  - destruct ic; cbn; [ reflexivity | eexists; reflexivity ].
  - destruct s; cbn; [ eexists; reflexivity | reflexivity ].
Qed.

(** X8 on the operator of the bare class with two inputs. *)
Lemma bare_class_failures_witness :
  exec (CAddInput (bundle 1) 0) bare_op = (Raise NotImplementedError, bare_op)
  /\ returns (fst (exec CCompleted bare_op)).
Proof.
  split.
  - apply (bare_class_failures (CAddInput (bundle 1) 0) bare_op eq_refl).
  - apply (bare_class_failures CCompleted bare_op eq_refl).
Defined.

(** X9. On an operator of the bare class, once the inputs are complete
    (from construction without dependencies, or by [all_inputs_done])
    [completed] raises the not-implemented error after every further
    sequence of calls, [all_dependents_complete] among them or not. *)
Theorem bare_class_never_completes (calls : list Call)
  (self : PhysicalOperator)
  (Hclass : class self = PhysicalOperator_class)
  (Hic : _inputs_complete self = true
         \/ existsb is_all_inputs_done calls = true) :
  fst (completed (run calls self)) = Raise NotImplementedError.
Proof.
  apply completed_unimplemented.
  - rewrite run_class. exact Hclass.
  - destruct (run_flags calls self) as (_ & Hi & _). rewrite Hi.
    destruct Hic as [ H | H ]; rewrite H;
      [ reflexivity | apply orb_true_r ].
Qed.

(** X9 on the operator of the bare class with two inputs: completed by its
    dependents, then told that its inputs are done. *)
Lemma bare_class_never_completes_witness :
  fst (completed (run [CAllDependentsComplete] bare_op)) = Ok true /\
  fst (completed (run [CAllDependentsComplete; CAllInputsDone] bare_op)) =
    Raise NotImplementedError.
Proof.
  split; [ reflexivity | ].
  apply (bare_class_never_completes
           [CAllDependentsComplete; CAllInputsDone] bare_op eq_refl).
  right. reflexivity.
Defined.

(** ** The number of outputs through a chain *)

(** X10. Through a chain of operators that inherit [num_outputs_total] and
    have one input dependency each, a call on the top of the chain returns
    what a call on its bottom returns; and [None] when the bottom inherits
    the method as well and does not have exactly one input dependency. *)
Theorem num_outputs_total_chain (bottom top : PhysicalOperator)
  (Hchain : passes_total bottom top) :
  call_num_outputs_total top = call_num_outputs_total bottom /\
  (c_num_outputs_total (class bottom) = None ->
   List.length (input_dependencies bottom) <> 1%nat ->
   call_num_outputs_total top = None).
Proof.
  assert (H : call_num_outputs_total top = call_num_outputs_total bottom).
  { induction Hchain as [ | self up Hinherit Hdeps _ IH ];
      [ reflexivity | ].
    rewrite call_num_outputs_total_unfold, Hinherit.
    unfold num_outputs_total. rewrite Hdeps. exact IH. }
  split; [ exact H | ].
  intros Hinherit Hlen. rewrite H, call_num_outputs_total_unfold, Hinherit.
  unfold num_outputs_total, len.
  destruct (Z.of_nat (List.length (input_dependencies bottom)) =? 1)
    eqn:Hone; [ | reflexivity ].
  apply Z.eqb_eq in Hone. lia.
Qed.

(** X10 on the two maps over the source of three bundles. *)
Lemma num_outputs_total_chain_witness :
  passes_total source_op map_map_op /\
  call_num_outputs_total map_map_op = Some 3.
Proof.
  assert (H : passes_total source_op map_map_op).
  { apply (passes_up source_op map_map_op map_op); try reflexivity.
    apply (passes_up source_op map_op source_op); try reflexivity.
    apply passes_here. }
  split; [ exact H | ].
  rewrite (proj1 (num_outputs_total_chain source_op map_map_op H)).
  reflexivity.
Defined.

(** ** The three flag calls *)

(** X11. [start], [all_inputs_done] and [all_dependents_complete] each
    assign one attribute of their own: made in any order they leave the
    same operator, and made twice they leave what they leave made once. *)
Theorem flag_calls_commute (o o' : ExecutionOptions)
  (self : PhysicalOperator) :
  run [CAllInputsDone; CAllDependentsComplete] self =
    run [CAllDependentsComplete; CAllInputsDone] self /\
  run [CStart o; CAllInputsDone] self = run [CAllInputsDone; CStart o] self /\
  run [CStart o; CAllDependentsComplete] self =
    run [CAllDependentsComplete; CStart o] self /\
  run [CStart o; CStart o'] self = run [CStart o] self /\
  run [CAllInputsDone; CAllInputsDone] self = run [CAllInputsDone] self /\
  run [CAllDependentsComplete; CAllDependentsComplete] self =
    run [CAllDependentsComplete] self.
Proof.
  destruct self as [C p n d ic dc s]. repeat split.
Qed.

(** ** Outstanding work *)

(** X12. While [num_active_work_refs] returns a positive count,
    [completed] returns the dependents flag and does not call [has_next]:
    an operator with work outstanding is completed only by its dependents,
    whatever its inputs flag and its class. *)
Theorem completed_with_active_work (self : PhysicalOperator) (k : Z)
  (Hcount : fst (num_active_work_refs self) = Ok k)
  (Hpos : 0 < k) :
  completed self = (Ok (_dependents_complete self), self).
Proof.
  rewrite completed_unfold. cbn in Hcount. injection Hcount as Hcount.
  replace (len (c_get_work_refs (class self) (priv self)) =? 0) with false.
  - rewrite andb_false_r. reflexivity.
  - symmetry. apply Z.eqb_neq. lia.
Qed.

(** X12 on the map operator with one task launched and its inputs declared
    done. *)
Lemma completed_with_active_work_witness :
  fst (num_active_work_refs
         (run [CAddInput (bundle 1) 0; CAllInputsDone] map_op)) = Ok 1 /\
  fst (completed (run [CAddInput (bundle 1) 0; CAllInputsDone] map_op)) =
    Ok false.
Proof.
  split; [ reflexivity | ].
  rewrite (completed_with_active_work
             (run [CAddInput (bundle 1) 0; CAllInputsDone] map_op) 1
             eq_refl eq_refl).
  reflexivity.
Defined.
